(** * CO2 emission predictor: the Streamlit script [app.py], embedded and verified

    The script is re-run from top to bottom on every interaction.  One run is
    modelled as a computation in a small state-and-exception monad: the state
    holds what has been drawn so far, the log of calls made to the model and
    the process-wide resource cache; an uncaught Python exception ends the run
    and keeps what had been drawn before it.

    Python values are the type [value]; [numpy.float64] is Rocq's primitive
    binary64 [float], so [<], [>] and the format [.1f] are the IEEE ones. *)

From Stdlib Require Import ZArith List String Ascii Bool Lia Floats DecimalString.
Import ListNotations.

Set Warnings "-inexact-float".

Local Open Scope string_scope.
Local Open Scope Z_scope.

(** ** Python values, tables, exceptions *)

Inductive value : Type :=
| VInt (z : Z)
| VStr (s : string)
| VFloat (f : float).

(** [v == "literal"]: a value that is not a [str] is never equal to one. *)
Definition eq_str (v : value) (s : string) : bool :=
  match v with
  | VStr t => String.eqb t s
  | _ => false
  end.

Definition value_eqb (a b : value) : bool :=
  match a, b with
  | VInt x, VInt y => Z.eqb x y
  | VStr x, VStr y => String.eqb x y
  | VFloat x, VFloat y => PrimFloat.eqb x y
  | _, _ => false
  end.

(** A [pandas.DataFrame] built from a dict of columns: the columns in insertion
    order, each with its cells. *)
Definition DataFrame : Type := list (string * list value).

Definition columns (df : DataFrame) : list string := map fst df.

Fixpoint column (name : string) (df : DataFrame) : list value :=
  match df with
  | [] => []
  | (c, cells) :: rest => if String.eqb c name then cells else column name rest
  end.

(** The exceptions of class [Exception], the ones [except Exception] catches;
    [KeyboardInterrupt] and [SystemExit] are outside the model. *)
Inductive exn : Type :=
| AttributeError (msg : string)
| IndexError (msg : string)
| StreamlitAPIException (msg : string)
| LibraryError (msg : string).

(** [str(e)] *)
Definition exn_str (e : exn) : string :=
  match e with
  | AttributeError m | IndexError m | StreamlitAPIException m | LibraryError m => m
  end.

Inductive result (A : Type) : Type :=
| Ok (a : A)
| Raise (e : exn).
Arguments Ok {A} a.
Arguments Raise {A} e.

(** The unpickled regressor: all the script uses of it is [predict], which
    returns an array of estimates, one per row, or raises. *)
Record Predictor : Type := { predict : DataFrame -> result (list float) }.

(** What lies outside the process: the fetch and the unpickling. *)
Record World : Type := {
  urlretrieve : string -> result (string * string);
  joblib_load : string -> result Predictor
}.

(** ** The page

    Where an element is drawn: the page itself, the sidebar, the two columns
    of [st.columns([1, 1])] and the three of [st.columns(3)]. *)

Inductive container : Type :=
| Page | Sidebar | Col1 | Col2 | ColInfo1 | ColInfo2 | ColInfo3.

Definition container_eqb (a b : container) : bool :=
  match a, b with
  | Page, Page | Sidebar, Sidebar | Col1, Col1 | Col2, Col2
  | ColInfo1, ColInfo1 | ColInfo2, ColInfo2 | ColInfo3, ColInfo3 => true
  | _, _ => false
  end.

(** The controls of the form with the arguments that bound what they return;
    the [help] texts and the button's [type] are left out. *)
Inductive widget : Type :=
| Slider (label : string) (min_value max_value default : Z)
| Selectbox (label : string) (options : list value) (index : nat)
| NumberInput (label : string) (min_value max_value default step : Z)
| Radio (label : string) (options : list value) (index : nat) (horizontal : bool)
| FormSubmitButton (label : string).

(** [sns.barplot(x=, y=, data=, palette=, ax=ax)] on a fresh figure, then
    [ax.set_title]. *)
Record Figure : Type := {
  figsize : Z * Z;
  data : DataFrame;
  x_column : string;
  y_column : string;
  palette : list string;
  title : string
}.

Inductive element : Type :=
| PageConfig (page_title page_icon layout initial_sidebar_state : string)
| Title (body : string)
| Header (body : string)
| Subheader (body : string)
| Markdown (body : string) (unsafe_allow_html : bool)
| ErrorBox (body : string)
| SuccessBox (body : string)
| WarningBox (body : string)
| Pyplot (fig : Figure)
| Control (w : widget).

(** What the user has set in the browser, by widget label. *)
Record Browser : Type := {
  slider_value : string -> option Z;
  number_value : string -> option Z;
  selected_index : string -> option nat;
  button_pressed : string -> bool
}.

(** ** The monad of one script run *)

Record Session : Type := {
  screen : list (container * element);
  predict_log : list DataFrame;
  resource_cache : option (option Predictor)
}.

Definition M (A : Type) : Type := Session -> result A * Session.

Definition ret {A} (a : A) : M A := fun s => (Ok a, s).

Definition bind {A B} (m : M A) (k : A -> M B) : M B :=
  fun s =>
    match m s with
    | (Ok a, s') => k a s'
    | (Raise e, s') => (Raise e, s')
    end.

Definition raise {A} (e : exn) : M A := fun s => (Raise e, s).

Definition lift {A} (r : result A) : M A := fun s => (r, s).

(** [try: body / except Exception as e: handler] *)
Definition try_except {A} (body : M A) (handler : exn -> M A) : M A :=
  fun s =>
    match body s with
    | (Ok a, s') => (Ok a, s')
    | (Raise e, s') => handler e s'
    end.

Declare Scope run_scope.
Delimit Scope run_scope with run.
Notation "x <- c ;; k" := (bind c (fun x => k))
  (at level 61, c at next level, right associativity) : run_scope.
Notation "c ;; k" := (bind c (fun _ => k))
  (at level 61, right associativity) : run_scope.
Local Open Scope run_scope.

Definition emit (c : container) (e : element) : M unit :=
  fun s => (Ok tt, {| screen := screen s ++ [(c, e)];
                      predict_log := predict_log s;
                      resource_cache := resource_cache s |}).

Definition log_call (df : DataFrame) : M unit :=
  fun s => (Ok tt, {| screen := screen s;
                      predict_log := predict_log s ++ [df];
                      resource_cache := resource_cache s |}).

(** ** The format [.1f] on a binary64

    The exact value [m * 2^e] is rounded to the nearest multiple of one tenth,
    ties to the even one, and printed with the sign the float carries. *)

Definition round_half_even (n d : Z) : Z :=
  let q := n / d in
  match 2 * (n mod d) ?= d with
  | Lt => q
  | Gt => q + 1
  | Eq => if Z.even q then q else q + 1
  end.

Definition tenths (m : positive) (e : Z) : Z :=
  if 0 <=? e then 10 * Z.pos m * 2 ^ e
  else round_half_even (10 * Z.pos m) (2 ^ (- e)).

Definition decimal (n : Z) : string := NilZero.string_of_int (Z.to_int n).

Definition sign_str (s : bool) : string := if s then "-" else "".

Definition format_1f (p : float) : string :=
  match Prim2SF p with
  | S754_nan => "nan"
  | S754_infinity s => sign_str s ++ "inf"
  | S754_zero s => sign_str s ++ "0.0"
  | S754_finite s m e =>
      let t := tenths m e in
      sign_str s ++ decimal (t / 10) ++ "." ++ decimal (t mod 10)
  end.

(** ** Streamlit calls *)

Definition st_set_page_config (page_title page_icon layout sidebar : string) : M unit :=
  emit Page (PageConfig page_title page_icon layout sidebar).
Definition st_title (c : container) (body : string) : M unit := emit c (Title body).
Definition st_header (c : container) (body : string) : M unit := emit c (Header body).
Definition st_subheader (c : container) (body : string) : M unit := emit c (Subheader body).
Definition st_markdown (c : container) (body : string) (unsafe_allow_html : bool) : M unit :=
  emit c (Markdown body unsafe_allow_html).
Definition st_error (c : container) (body : string) : M unit := emit c (ErrorBox body).
Definition st_success (c : container) (body : string) : M unit := emit c (SuccessBox body).
Definition st_warning (c : container) (body : string) : M unit := emit c (WarningBox body).
Definition st_pyplot (c : container) (fig : Figure) : M unit := emit c (Pyplot fig).

Definition in_range (lo hi v : Z) : bool := (lo <=? v) && (v <=? hi).

(** A slider and a number input hand back the integer the browser holds when
    it lies between the bounds, and their default otherwise; a default outside
    the bounds is refused when the widget is declared. *)
Definition bounded_value (lo hi default : Z) (held : option Z) : Z :=
  match held with
  | Some v => if in_range lo hi v then v else default
  | None => default
  end.

Definition st_slider (b : Browser) (c : container) (label : string)
    (min_value max_value default : Z) : M value :=
  if in_range min_value max_value default then
    emit c (Control (Slider label min_value max_value default));;
    ret (VInt (bounded_value min_value max_value default (slider_value b label)))
  else raise (StreamlitAPIException "slider value out of bounds").

Definition st_number_input (b : Browser) (c : container) (label : string)
    (min_value max_value default step : Z) : M value :=
  if in_range min_value max_value default then
    emit c (Control (NumberInput label min_value max_value default step));;
    ret (VInt (bounded_value min_value max_value default (number_value b label)))
  else raise (StreamlitAPIException "number input value out of bounds").

(** A selectbox and a radio hand back the option at the position the browser
    holds, and the option at [index] when there is none. *)
Definition chosen (options : list value) (default : value) (held : option nat) : value :=
  match held with
  | Some i => nth i options default
  | None => default
  end.

Definition st_selectbox (b : Browser) (c : container) (label : string)
    (options : list value) (index : nat) : M value :=
  match nth_error options index with
  | Some default =>
      emit c (Control (Selectbox label options index));;
      ret (chosen options default (selected_index b label))
  | None => raise (StreamlitAPIException "selectbox index out of range")
  end.

Definition st_radio (b : Browser) (c : container) (label : string)
    (options : list value) (index : nat) (horizontal : bool) : M value :=
  match nth_error options index with
  | Some default =>
      emit c (Control (Radio label options index horizontal));;
      ret (chosen options default (selected_index b label))
  | None => raise (StreamlitAPIException "radio index out of range")
  end.

Definition st_form_submit_button (b : Browser) (c : container) (label : string) : M bool :=
  emit c (Control (FormSubmitButton label));;
  ret (button_pressed b label).

(** [@st.cache_resource]: the body runs on the first call of the process and
    its result, [None] included, is kept for every later call.  What the body
    draws is drawn here by the run that executes it; Streamlit also draws it
    again on every later call served from the cache, and that replay is not
    modelled: of a run that starts with a filled cache, nothing below reads
    the [Page] pane. *)
Definition cache_resource (body : M (option Predictor)) : M (option Predictor) :=
  fun s =>
    match resource_cache s with
    | Some kept => (Ok kept, s)
    | None =>
        match body s with
        | (Ok r, s') => (Ok r, {| screen := screen s';
                                  predict_log := predict_log s';
                                  resource_cache := Some r |})
        | (Raise e, s') => (Raise e, s')
        end
    end.

(** ** The script *)

Definition load_model (w : World) : M (option Predictor) :=
  try_except
    (let url := "https://drive.google.com/uc?export=download&id=19lyMxgVSDg05qscSSUClIlbTvOvP3sBK" in
     fetched <- lift (urlretrieve w "co2_emission_predictor_rf.pkl");;
     loaded <- lift (joblib_load w (fst fetched));;
     ret (Some loaded))
    (fun e =>
       st_error Page ("Error loading model: " ++ exn_str e);;
       ret None).

Definition app_header : M unit :=
  st_title Page "🚗 CO₂ Emission Predictor";;
  st_markdown Page "
Estimate your vehicle's CO₂ emissions based on basic specifications. 
This tool helps you understand your environmental impact when choosing a vehicle.
" false.

Definition sidebar : M unit :=
  st_header Sidebar "About This Tool";;
  st_markdown Sidebar "
    This predictive model estimates CO₂ emissions (in grams per kilometer) based on:
    - Vehicle model year
    - Fuel type
    - Kilometers driven
    - Engine size
    - Transmission type
    
    The model was trained on realistic vehicle data with emissions calculated considering:
    - Age degradation effects
    - Mileage impact
    - Fuel type differences
    - Engine size scaling
    " false;;
  st_markdown Sidebar "---" false;;
  st_markdown Sidebar "**Project by:** Abdul Hadi (L1S22BSCS0351)" false;;
  st_markdown Sidebar "**Course:** BSCS - Introductiion to Data Science" false.

(** The six names the form binds, gathered. *)
Record FormValues : Type := {
  model_year : value;
  fuel_type : value;
  kms_driven : value;
  engine_cc : value;
  transmission : value;
  submitted : bool
}.

Definition fuel_options : list value :=
  [VStr "Petrol"; VStr "Diesel"; VStr "Hybrid"; VStr "Electric"].

Definition engine_options : list value :=
  map VInt [1000; 1200; 1500; 1800; 2000; 2200; 2500; 2800; 3000; 3200; 3500;
            3800; 4000; 4500; 5000].

Definition transmission_options : list value := [VStr "Manual"; VStr "Automatic"].

Definition prediction_form (b : Browser) : M FormValues :=
  model_year <- st_slider b Col1 "Model Year" 1985 2025 2018;;
  fuel_type <- st_selectbox b Col1 "Fuel Type" fuel_options 0;;
  kms_driven <- st_number_input b Col1 "Kilometers Driven" 0 500000 50000 1000;;
  engine_cc <- st_selectbox b Col1 "Engine Size (cc)" engine_options 4;;
  transmission <- st_radio b Col1 "Transmission Type" transmission_options 0 true;;
  submitted <- st_form_submit_button b Col1 "Calculate CO₂ Emissions";;
  ret {| model_year := model_year; fuel_type := fuel_type; kms_driven := kms_driven;
         engine_cc := engine_cc; transmission := transmission;
         submitted := submitted |}.

Definition input_data (fv : FormValues) : DataFrame :=
  [ ("Model_Year", [model_year fv]);
    ("Fuel_Type", [fuel_type fv]);
    ("KMs_Driven", [kms_driven fv]);
    ("Engine_CC", [engine_cc fv]);
    ("Transmission_Type", [transmission fv]) ].

(** [model.predict(input_data)]: looking [predict] up on [None] raises before
    any call is made. *)
Definition call_predict (model : option Predictor) (df : DataFrame) : M (list float) :=
  match model with
  | None => raise (AttributeError "'NoneType' object has no attribute 'predict'")
  | Some m => log_call df;; lift (predict m df)
  end.

(** [array[0]] *)
Definition getitem0 (arr : list float) : M float :=
  match arr with
  | p :: _ => ret p
  | [] => raise (IndexError "index 0 is out of bounds for axis 0 with size 0")
  end.

Record Tier : Type := {
  emission_color : string;
  emission_icon : string;
  emission_message : string
}.

Definition low_tier : Tier :=
  {| emission_color := "green"; emission_icon := "✅";
     emission_message := "Low Emissions" |}.
Definition moderate_tier : Tier :=
  {| emission_color := "orange"; emission_icon := "⚠️";
     emission_message := "Moderate Emissions" |}.
Definition high_tier : Tier :=
  {| emission_color := "red"; emission_icon := "❌";
     emission_message := "High Emissions" |}.

Definition emission_tier (prediction : float) : Tier :=
  if (prediction <? 100)%float then low_tier
  else if (prediction <? 180)%float then moderate_tier
  else high_tier.

(** The line of the result box that carries the estimate. *)
Definition headline (t : Tier) (prediction : float) : string :=
  emission_icon t ++ " " ++ format_1f prediction ++ " g/km".

Definition result_box (t : Tier) (prediction : float) : string :=
  "
            <div style='background-color:#f0f2f6; padding:20px; border-radius:10px;'>
                <h2 style='color:" ++ emission_color t ++ "; text-align:center;'>
                    " ++ headline t prediction ++ "
                </h2>
                <p style='text-align:center; font-size:18px;'>" ++ emission_message t ++ "</p>
            </div>
            ".

Definition comparison_data (prediction : float) : DataFrame :=
  [ ("Vehicle Type",
     [VStr "Small Petrol Car"; VStr "Average Diesel Car"; VStr "SUV"; VStr "Your Vehicle"]);
    ("CO₂ Emissions (g/km)", [VInt 120; VInt 150; VInt 200; VFloat prediction]) ].

Definition comparison_chart (t : Tier) (prediction : float) : Figure :=
  {| figsize := (8, 4);
     data := comparison_data prediction;
     x_column := "Vehicle Type";
     y_column := "CO₂ Emissions (g/km)";
     palette := ["#1f77b4"; "#1f77b4"; "#1f77b4"; emission_color t];
     title := "Emission Comparison" |}.

Definition tips_heading : string := "**Tips to reduce emissions:**".

Definition tips_list : string := "
                - Consider more frequent maintenance
                - Check tire pressure regularly
                - Reduce unnecessary weight in vehicle
                - Consider a more efficient vehicle for your next purchase
                ".

(** Lines 131 to 185: what is drawn once the prediction is at hand. *)
Definition display_result (fuel : value) (prediction : float) : M unit :=
  if eq_str fuel "Electric" then
    st_success Col2 "## 🎉 0 g/km";;
    st_markdown Col2 "Electric vehicles produce zero direct CO₂ emissions!" false
  else
    let t := emission_tier prediction in
    st_markdown Col2 (result_box t prediction) true;;
    st_markdown Col2 "### How does this compare?" false;;
    st_pyplot Col2 (comparison_chart t prediction);;
    if (150 <? prediction)%float then
      st_warning Col2 tips_heading;;
      st_markdown Col2 tips_list false
    else ret tt.

(** Lines 114 to 185: the results column. *)
Definition prediction_results (model : option Predictor) (fv : FormValues) : M unit :=
  st_subheader Col2 "Prediction Results";;
  if submitted fv then
    predicted <- call_predict model (input_data fv);;
    prediction <- getitem0 predicted;;
    display_result (fuel_type fv) prediction
  else ret tt.

Definition understanding_your_results : M unit :=
  st_markdown Page "---" false;;
  st_subheader Page "Understanding Your Results";;
  st_markdown ColInfo1 "
    **Emission Standards Reference:**
    - Euro 6 (2021): 95 g/km (average for new cars)
    - Euro 5 (2009): 130 g/km
    - Euro 4 (2005): 160 g/km
    " false;;
  st_markdown ColInfo2 "
    **Typical Emissions by Fuel:**
    - Petrol: 120-200 g/km
    - Diesel: 100-180 g/km
    - Hybrid: 50-120 g/km
    - Electric: 0 g/km (direct)
    " false;;
  st_markdown ColInfo3 "
    **Factors Affecting Emissions:**
    - Older vehicles typically emit more
    - Higher mileage increases emissions
    - Larger engines produce more CO₂
    - Automatic transmissions often less efficient
    " false;;
  st_markdown Page "
<style>
    .stSlider>div>div>div>div {
        background: #1f77b4;
    }
    .st-b7 {
        background-color: #1f77b4;
    }
    .st-c0 {
        background-color: #1f77b4;
    }
</style>
" true.

Definition script (w : World) (b : Browser) : M unit :=
  st_set_page_config "CO₂ Predictor" "🌿" "wide" "expanded";;
  model <- cache_resource (load_model w);;
  app_header;;
  sidebar;;
  st_subheader Col1 "Vehicle Specifications";;
  fv <- prediction_form b;;
  prediction_results model fv;;
  understanding_your_results.

(** One run of the script: the page starts empty, the cache is the process's. *)
Definition rerun (w : World) (b : Browser) (cache : option (option Predictor))
    : result unit * Session :=
  script w b {| screen := []; predict_log := []; resource_cache := cache |}.

(** ** Reading the page *)

Definition pane_of (c : container) (l : list (container * element)) : list element :=
  map snd (filter (fun ce => container_eqb (fst ce) c) l).

(** What a container shows, top to bottom. *)
Definition pane (c : container) (s : Session) : list element := pane_of c (screen s).

Definition is_tips (e : element) : bool :=
  match e with
  | WarningBox body => String.eqb body tips_heading
  | Markdown body _ => String.eqb body tips_list
  | _ => false
  end.

Definition tips_in (l : list (container * element)) : bool :=
  existsb is_tips (map snd l).

Definition tips_rendered (s : Session) : bool := tips_in (screen s).

Fixpoint charts (l : list element) : list Figure :=
  match l with
  | [] => []
  | Pyplot fig :: rest => fig :: charts rest
  | _ :: rest => charts rest
  end.

Definition charts_in (l : list (container * element)) : list Figure :=
  charts (map snd l).

Definition charts_rendered (s : Session) : list Figure := charts_in (screen s).

(** [sns.barplot] leaves out a row whose height is NaN or infinite. *)
Definition draws_bar (height : value) : bool :=
  match height with
  | VFloat f => is_finite f
  | _ => true
  end.

(** The bars of a chart: one per row of its table whose height is a finite
    number, with its label, its height and the palette entry of its row (the
    colour the bar is given, which seaborn draws desaturated). *)
Definition bars (fig : Figure) : list (value * value * string) :=
  filter (fun bar => draws_bar (snd (fst bar)))
    (combine (combine (column (x_column fig) (data fig))
                      (column (y_column fig) (data fig)))
             (palette fig)).

(** ** What a run starts from

    The value bound to [model] at line 29, and the record the form hands over,
    written out; [cached_load_model_run] and [prediction_form_run] show that
    they are what the code computes. *)

Definition loaded_model (w : World) (cache : option (option Predictor)) : option Predictor :=
  match cache with
  | Some kept => kept
  | None =>
      match urlretrieve w "co2_emission_predictor_rf.pkl" with
      | Ok fetched =>
          match joblib_load w (fst fetched) with
          | Ok m => Some m
          | Raise _ => None
          end
      | Raise _ => None
      end
  end.

(** The exception [load_model] catches, when it runs and catches one. *)
Definition load_failure (w : World) (cache : option (option Predictor)) : option exn :=
  match cache with
  | Some _ => None
  | None =>
      match urlretrieve w "co2_emission_predictor_rf.pkl" with
      | Ok fetched =>
          match joblib_load w (fst fetched) with
          | Ok _ => None
          | Raise e => Some e
          end
      | Raise e => Some e
      end
  end.

Definition form_values (b : Browser) : FormValues :=
  {| model_year := VInt (bounded_value 1985 2025 2018 (slider_value b "Model Year"));
     fuel_type := chosen fuel_options (VStr "Petrol") (selected_index b "Fuel Type");
     kms_driven := VInt (bounded_value 0 500000 50000 (number_value b "Kilometers Driven"));
     engine_cc := chosen engine_options (VInt 2000) (selected_index b "Engine Size (cc)");
     transmission :=
       chosen transmission_options (VStr "Manual") (selected_index b "Transmission Type");
     submitted := button_pressed b "Calculate CO₂ Emissions" |}.

(** ** Stubs for the outside world, and browsers *)

Definition stub_predictor (p : float) : Predictor :=
  {| predict := fun _ => Ok [p] |}.

Definition broken_predictor : Predictor :=
  {| predict := fun _ => Raise (LibraryError "predict was called") |}.

Definition world_with (m : Predictor) : World :=
  {| urlretrieve := fun _ => Ok ("/tmp/model.pkl", "");
     joblib_load := fun _ => Ok m |}.

Definition offline : World :=
  {| urlretrieve := fun u => Raise (LibraryError ("unknown url type: '" ++ u ++ "'"));
     joblib_load := fun _ => Raise (LibraryError "no such file") |}.

Definition untouched : Browser :=
  {| slider_value := fun _ => None;
     number_value := fun _ => None;
     selected_index := fun _ => None;
     button_pressed := fun _ => false |}.

(** The defaults of the form, submitted: 2018, Petrol, 50000 km, 2000 cc, Manual. *)
Definition defaults_submitted : Browser :=
  {| slider_value := fun _ => None;
     number_value := fun _ => None;
     selected_index := fun _ => None;
     button_pressed := fun _ => true |}.

(** The same with the fourth fuel, Electric, selected. *)
Definition electric_submitted : Browser :=
  {| slider_value := fun _ => None;
     number_value := fun _ => None;
     selected_index := fun l => if String.eqb l "Fuel Type" then Some 3%nat else None;
     button_pressed := fun _ => true |}.

(** ** Proof devices

    [extend] is the session after more has been drawn and more calls logged;
    [shown] and [results_view] say in one place what the results column draws
    and how it ends ([display_result_run], [prediction_results_run] and
    [rerun_view] prove that the code does exactly that); [form_controls] and
    [footer] are read off the code by running it on a blank page. *)

Definition extend (s : Session) (drawn : list (container * element))
    (calls : list DataFrame) : Session :=
  {| screen := (screen s ++ drawn)%list;
     predict_log := (predict_log s ++ calls)%list;
     resource_cache := resource_cache s |}.

Definition in_col2 (l : list element) : list (container * element) := map (pair Col2) l.

Definition shown (fuel : value) (prediction : float) : list element :=
  if eq_str fuel "Electric" then
    [SuccessBox "## 🎉 0 g/km";
     Markdown "Electric vehicles produce zero direct CO₂ emissions!" false]
  else
    ([Markdown (result_box (emission_tier prediction) prediction) true;
      Markdown "### How does this compare?" false;
      Pyplot (comparison_chart (emission_tier prediction) prediction)]
     ++ (if (150 <? prediction)%float
         then [WarningBox tips_heading; Markdown tips_list false]
         else []))%list.

Definition results_view (model : option Predictor) (fv : FormValues)
    : result unit * list element * list DataFrame :=
  if submitted fv then
    match model with
    | None =>
        (Raise (AttributeError "'NoneType' object has no attribute 'predict'"),
         [Subheader "Prediction Results"], [])
    | Some m =>
        match predict m (input_data fv) with
        | Ok (p :: _) =>
            (Ok tt, Subheader "Prediction Results" :: shown (fuel_type fv) p,
             [input_data fv])
        | Ok [] =>
            (Raise (IndexError "index 0 is out of bounds for axis 0 with size 0"),
             [Subheader "Prediction Results"], [input_data fv])
        | Raise e => (Raise e, [Subheader "Prediction Results"], [input_data fv])
        end
    end
  else (Ok tt, [Subheader "Prediction Results"], []).

Definition blank : Session :=
  {| screen := []; predict_log := []; resource_cache := None |}.

Definition form_controls (b : Browser) : list (container * element) :=
  screen (snd (prediction_form b blank)).

Definition footer : list (container * element) :=
  screen (snd (understanding_your_results blank)).

Definition load_errors (w : World) (cache : option (option Predictor)) : list element :=
  match load_failure w cache with
  | Some e => [ErrorBox ("Error loading model: " ++ exn_str e)]
  | None => []
  end.

(** The page before the form: the configuration, what [load_model] reported,
    the header and the sidebar. *)
Definition opening (w : World) (cache : option (option Predictor))
    : list (container * element) :=
  ([(Page, PageConfig "CO₂ Predictor" "🌿" "wide" "expanded")]
   ++ map (pair Page) (load_errors w cache)
   ++ screen (snd ((app_header;; sidebar;;
                    st_subheader Col1 "Vehicle Specifications") blank)))%list.

(** ** The declared domains of a request (spec, section 3) *)

Definition int_between (lo hi : Z) (v : value) : bool :=
  match v with
  | VInt z => (lo <=? z) && (z <=? hi)
  | _ => false
  end.

Definition request_in_domain (fv : FormValues) : bool :=
  int_between 1985 2025 (model_year fv)
  && (eq_str (fuel_type fv) "Petrol" || eq_str (fuel_type fv) "Diesel"
      || eq_str (fuel_type fv) "Hybrid" || eq_str (fuel_type fv) "Electric")
  && int_between 0 500000 (kms_driven fv)
  && existsb (value_eqb (engine_cc fv)) engine_options
  && (eq_str (transmission fv) "Manual" || eq_str (transmission fv) "Automatic").

(** ** More to read a run by

    The download link of line 22 and a world that serves it and nothing else;
    the fixed parts of the page, read off the code on a blank page. *)

Definition drive_url : string :=
  "https://drive.google.com/uc?export=download&id=19lyMxgVSDg05qscSSUClIlbTvOvP3sBK".

Definition drive_only (m : Predictor) : World :=
  {| urlretrieve := fun u =>
       if String.eqb u drive_url then Ok ("/tmp/model.pkl", "")
       else Raise (LibraryError ("unknown url type: '" ++ u ++ "'"));
     joblib_load := fun _ => Ok m |}.

Definition sidebar_panel : list element :=
  pane_of Sidebar (screen (snd (sidebar blank))).

Definition reference_panels : list element :=
  (pane_of ColInfo1 footer ++ pane_of ColInfo2 footer ++ pane_of ColInfo3 footer)%list.

(** A predictor that returns two rows, and a browser with another year,
    mileage, engine and gearbox than the defaults. *)
Definition two_row_predictor (p q : float) : Predictor :=
  {| predict := fun _ => Ok [p; q] |}.

Definition other_car_submitted : Browser :=
  {| slider_value := fun _ => Some 1999;
     number_value := fun _ => Some 240000;
     selected_index := fun l =>
       if String.eqb l "Engine Size (cc)" then Some 9%nat
       else if String.eqb l "Transmission Type" then Some 1%nat
       else None;
     button_pressed := fun _ => true |}.

(** * Proofs *)

Local Open Scope list_scope.

(** ** Reading a page that grows *)

Lemma pane_of_app c l1 l2 : pane_of c (l1 ++ l2) = pane_of c l1 ++ pane_of c l2.
Proof. unfold pane_of. now rewrite filter_app, map_app. Qed.

Lemma tips_in_app l1 l2 : tips_in (l1 ++ l2) = tips_in l1 || tips_in l2.
Proof. unfold tips_in. now rewrite map_app, existsb_app. Qed.

Lemma charts_app l1 l2 : charts (l1 ++ l2) = charts l1 ++ charts l2.
Proof.
  induction l1 as [|e l1 IH]; [reflexivity|].
  destruct e; cbn; rewrite IH; reflexivity.
Qed.

Lemma charts_in_app l1 l2 : charts_in (l1 ++ l2) = charts_in l1 ++ charts_in l2.
Proof. unfold charts_in. now rewrite map_app, charts_app. Qed.

Create Rewrite HintDb page.
#[local] Hint Rewrite pane_of_app tips_in_app charts_in_app : page.

Lemma pane_of_in_col2 l : pane_of Col2 (in_col2 l) = l.
Proof.
  unfold in_col2, pane_of. induction l as [|e l IH]; [reflexivity|].
  cbn. now rewrite IH.
Qed.

Lemma pane_of_page_in_col2 l : pane_of Page (in_col2 l) = [].
Proof. unfold in_col2, pane_of. induction l as [|e l IH]; [reflexivity|exact IH]. Qed.

Lemma tips_in_col2 l : tips_in (in_col2 l) = existsb is_tips l.
Proof. unfold tips_in, in_col2. rewrite map_map. cbn. now rewrite map_id. Qed.

Lemma charts_in_col2 l : charts_in (in_col2 l) = charts l.
Proof. unfold charts_in, in_col2. rewrite map_map. cbn. now rewrite map_id. Qed.

(** ** Steps of a run *)

Lemma bind_run {A B} (m : M A) (k : A -> M B) s a s' :
  m s = (Ok a, s') -> bind m k s = k a s'.
Proof. intros H. unfold bind. now rewrite H. Qed.

Ltac run_emits :=
  cbv [bind ret raise lift emit log_call st_title st_header st_subheader st_markdown
       st_error st_success st_warning st_pyplot st_set_page_config
       screen predict_log resource_cache].

Ltac same_session :=
  unfold extend, in_col2; cbn [screen predict_log resource_cache map app];
  repeat rewrite <- app_assoc; cbn [app map];
  repeat rewrite app_nil_r; reflexivity.

Lemma cached_load_model_run w s :
  cache_resource (load_model w) s =
  (Ok (loaded_model w (resource_cache s)),
   {| screen := screen s ++ map (pair Page) (load_errors w (resource_cache s));
      predict_log := predict_log s;
      resource_cache := Some (loaded_model w (resource_cache s)) |}).
Proof.
  destruct s as [scr log [kept|]]; unfold cache_resource, load_errors;
    cbn [resource_cache].
  - cbn. now rewrite app_nil_r.
  - unfold load_model, try_except, bind, lift, ret, st_error, emit, loaded_model,
      load_failure.
    cbn [screen predict_log resource_cache].
    destruct (urlretrieve w _) as [fetched|e]; [|reflexivity].
    destruct (joblib_load w _) as [m|e]; [|reflexivity].
    cbn. now rewrite app_nil_r.
Qed.

Lemma prediction_form_run b s :
  prediction_form b s = (Ok (form_values b), extend s (form_controls b) []).
Proof.
  unfold form_controls, prediction_form, form_values, blank.
  cbv [st_slider st_number_input st_selectbox st_radio st_form_submit_button in_range
       fuel_options engine_options transmission_options nth_error map
       Z.leb Z.compare Pos.compare Pos.compare_cont andb].
  run_emits. cbn [snd]. f_equal; same_session.
Qed.

Lemma display_result_run fuel p s :
  display_result fuel p s = (Ok tt, extend s (in_col2 (shown fuel p)) []).
Proof.
  unfold display_result, shown.
  destruct (eq_str fuel "Electric").
  - run_emits. f_equal; same_session.
  - destruct (150 <? p)%float; run_emits; f_equal; same_session.
Qed.

Lemma prediction_results_run model fv s :
  prediction_results model fv s =
  (fst (fst (results_view model fv)),
   extend s (in_col2 (snd (fst (results_view model fv)))) (snd (results_view model fv))).
Proof.
  unfold prediction_results, results_view.
  rewrite (bind_run _ _ s tt (extend s [(Col2, Subheader "Prediction Results")] []))
    by (run_emits; f_equal; same_session).
  destruct (submitted fv).
  - destruct model as [m|]; cbv [bind call_predict log_call lift raise];
      cbn [screen predict_log resource_cache extend fst snd].
    + destruct (predict m (input_data fv)) as [[|p rest]|e];
        cbv [getitem0 raise ret]; cbn [fst snd].
      * f_equal; same_session.
      * rewrite display_result_run. f_equal; same_session.
      * f_equal; same_session.
    + f_equal; same_session.
  - unfold ret. cbn [fst snd]. f_equal; same_session.
Qed.

Lemma understanding_your_results_run s :
  understanding_your_results s = (Ok tt, extend s footer []).
Proof.
  unfold footer, understanding_your_results, blank. run_emits. cbn [snd].
  f_equal; same_session.
Qed.

Lemma quiet_form b :
  pane_of Col2 (form_controls b) = [] /\ tips_in (form_controls b) = false
  /\ charts_in (form_controls b) = [] /\ pane_of Page (form_controls b) = [].
Proof. repeat split; reflexivity. Qed.

Lemma quiet_footer :
  pane_of Col2 footer = [] /\ tips_in footer = false /\ charts_in footer = [].
Proof. repeat split; reflexivity. Qed.

Section WholeRun.

Variable w : World.
Variable b : Browser.
Variable cache : option (option Predictor).

Lemma quiet_load_errors :
  pane_of Col2 (map (pair Page) (load_errors w cache)) = []
  /\ tips_in (map (pair Page) (load_errors w cache)) = false
  /\ charts_in (map (pair Page) (load_errors w cache)) = []
  /\ pane_of Page (map (pair Page) (load_errors w cache)) = load_errors w cache.
Proof. unfold load_errors. destruct (load_failure w cache); repeat split; reflexivity. Qed.

Lemma quiet_opening :
  pane_of Col2 (opening w cache) = [] /\ tips_in (opening w cache) = false
  /\ charts_in (opening w cache) = []
  /\ incl (load_errors w cache) (pane_of Page (opening w cache)).
Proof.
  destruct quiet_load_errors as (H1 & H2 & H3 & H4).
  unfold opening. autorewrite with page. rewrite H1, H2, H3, H4.
  repeat split; try reflexivity.
  intros e He. apply in_or_app. right. apply in_or_app. now left.
Qed.

(** ** The whole run, read through [results_view] *)

Lemma rerun_run :
  let view := results_view (loaded_model w cache) (form_values b) in
  rerun w b cache =
  (fst (fst view),
   {| screen := opening w cache ++ form_controls b ++ in_col2 (snd (fst view))
                ++ match fst (fst view) with Ok _ => footer | Raise _ => [] end;
      predict_log := snd view;
      resource_cache := Some (loaded_model w cache) |}).
Proof.
  unfold rerun, script, opening.
  rewrite (bind_run _ _ _ tt
             {| screen := [(Page, PageConfig "CO₂ Predictor" "🌿" "wide" "expanded")];
                predict_log := []; resource_cache := cache |}) by reflexivity.
  rewrite (bind_run _ _ _ _ _ (cached_load_model_run w _)).
  cbn [screen predict_log resource_cache].
  unfold app_header, sidebar, blank.
  run_emits.
  rewrite prediction_form_run, prediction_results_run.
  set (view := results_view _ _).
  destruct view as [[outcome drawn] calls]. cbn [fst snd].
  destruct outcome as [[]|e]; [rewrite understanding_your_results_run|];
    f_equal; same_session.
Qed.

Lemma rerun_view :
  let view := results_view (loaded_model w cache) (form_values b) in
  let s := snd (rerun w b cache) in
  fst (rerun w b cache) = fst (fst view)
  /\ pane Col2 s = snd (fst view)
  /\ predict_log s = snd view
  /\ tips_rendered s = existsb is_tips (snd (fst view))
  /\ charts_rendered s = charts (snd (fst view))
  /\ resource_cache s = Some (loaded_model w cache)
  /\ incl (load_errors w cache) (pane Page s).
Proof.
  cbv zeta. rewrite rerun_run.
  set (view := results_view _ _).
  destruct quiet_opening as (Ho1 & Ho2 & Ho3 & Ho4).
  destruct (quiet_form b) as (Hf1 & Hf2 & Hf3 & _).
  destruct quiet_footer as (Hu1 & Hu2 & Hu3).
  unfold pane, tips_rendered, charts_rendered.
  cbn [fst snd screen predict_log resource_cache].
  autorewrite with page.
  rewrite Ho1, Ho2, Ho3, Hf1, Hf2, Hf3, pane_of_in_col2, tips_in_col2, charts_in_col2.
  assert (Hq : pane_of Col2 match fst (fst view) with Ok _ => footer | Raise _ => [] end = []
               /\ tips_in match fst (fst view) with Ok _ => footer | Raise _ => [] end = false
               /\ charts_in match fst (fst view) with Ok _ => footer | Raise _ => [] end = []).
  { destruct (fst (fst view)); [now rewrite Hu1, Hu2, Hu3 | repeat split; reflexivity]. }
  destruct Hq as (Hq1 & Hq2 & Hq3). rewrite Hq1, Hq2, Hq3.
  cbn [app orb]. rewrite !app_nil_r, orb_false_r.
  repeat split; try reflexivity.
  intros e He. apply in_or_app. left. now apply Ho4.
Qed.

(** A run calls the predictor at most once, on the form's feature record. *)
Lemma predict_log_cases :
  predict_log (snd (rerun w b cache)) = []
  \/ predict_log (snd (rerun w b cache)) = [input_data (form_values b)].
Proof.
  destruct rerun_view as (_ & _ & -> & _).
  unfold results_view. destruct (submitted _); [|now left].
  destruct (loaded_model w cache) as [m|]; [|now left].
  destruct (predict m _) as [[|p rest]|e]; now right.
Qed.

End WholeRun.

(** ** Comparisons on binary64 *)

Lemma SFcompare_antisym a b : SFcompare b a = option_map CompOpp (SFcompare a b).
Proof.
  destruct a as [sa|sa| |sa ma ea], b as [sb|sb| |sb mb eb]; cbn;
    try (destruct sa); try (destruct sb); try reflexivity;
    rewrite (Z.compare_antisym ea eb); destruct (ea ?= eb); cbn; try reflexivity;
    change (PosDef.Pos.compare_cont Eq) with Pos.compare;
    rewrite (Pos.compare_antisym ma mb); destruct (ma ?= mb)%positive; reflexivity.
Qed.

Lemma SFltb_leb_trans a b c :
  SFltb a b = true -> SFleb b c = true -> SFltb a c = true.
Proof.
  unfold SFltb, SFleb.
  destruct a as [sa|sa| |sa ma ea], b as [sb|sb| |sb mb eb], c as [sc|sc| |sc mc ec];
    cbn; try (destruct sa); try (destruct sb); try (destruct sc); cbn; try congruence;
    change (PosDef.Pos.compare_cont Eq) with Pos.compare;
    destruct (Z.compare_spec ea eb); destruct (Z.compare_spec eb ec);
    destruct (Z.compare_spec ea ec); try lia; cbn; try congruence; subst;
    destruct (Pos.compare_spec ma mb); destruct (Pos.compare_spec mb mc);
    destruct (Pos.compare_spec ma mc); cbn; try congruence; try lia.
Qed.

(** [a <= x] excludes [x < a]. *)
Lemma leb_not_ltb (a x : float) : (a <=? x)%float = true -> (x <? a)%float = false.
Proof.
  rewrite leb_spec, ltb_spec. unfold SFleb, SFltb.
  rewrite (SFcompare_antisym (Prim2SF a) (Prim2SF x)).
  destruct (SFcompare (Prim2SF a) (Prim2SF x)) as [[]|]; cbn; congruence.
Qed.

(** [lo < hi <= x] excludes [x < lo]. *)
Lemma above_not_below (lo hi x : float) :
  (lo <? hi)%float = true -> (hi <=? x)%float = true -> (x <? lo)%float = false.
Proof.
  intros Hlh Hx. apply leb_not_ltb.
  assert (H : (lo <? x)%float = true).
  { rewrite ltb_spec in *. rewrite leb_spec in Hx. eapply SFltb_leb_trans; eassumption. }
  rewrite ltb_spec in H. rewrite leb_spec. unfold SFltb, SFleb in *.
  destruct (SFcompare (Prim2SF lo) (Prim2SF x)) as [[]|]; congruence.
Qed.

(** ** The format [.1f] rounds to the nearest tenth *)

Lemma round_half_even_nearest n d :
  0 < d -> 2 * Z.abs (round_half_even n d * d - n) <= d.
Proof.
  intros Hd. unfold round_half_even.
  pose proof (Z.div_mod n d ltac:(lia)) as Hdm.
  pose proof (Z.mod_pos_bound n d Hd) as Hr.
  destruct (Z.compare_spec (2 * (n mod d)) d) as [He|Hl|Hg];
    [destruct (Z.even (n / d))| |]; nia.
Qed.

Lemma round_half_even_nonneg n d : 0 <= n -> 0 < d -> 0 <= round_half_even n d.
Proof.
  intros Hn Hd. unfold round_half_even.
  pose proof (Z.div_pos n d Hn Hd).
  destruct (2 * (n mod d) ?= d); [destruct (Z.even (n / d))| |]; lia.
Qed.

(** On a tie the even neighbour is taken. *)
Lemma round_half_even_tie n d :
  0 < d -> 2 * Z.abs (round_half_even n d * d - n) = d ->
  Z.even (round_half_even n d) = true.
Proof.
  intros Hd. unfold round_half_even.
  pose proof (Z.div_mod n d ltac:(lia)) as Hdm.
  pose proof (Z.mod_pos_bound n d Hd) as Hr.
  destruct (Z.compare_spec (2 * (n mod d)) d) as [He|Hl|Hg].
  - destruct (Z.even (n / d)) eqn:Hq; intros _; [exact Hq|].
    replace (n / d + 1) with (Z.succ (n / d)) by lia.
    rewrite Z.even_succ, <- Z.negb_even, Hq. reflexivity.
  - intros H. exfalso. nia.
  - intros H. exfalso. nia.
Qed.

Lemma tenths_nonneg m e : 0 <= tenths m e.
Proof.
  unfold tenths. destruct (0 <=? e) eqn:He.
  - apply Z.mul_nonneg_nonneg; [lia|]. apply Z.pow_nonneg. lia.
  - apply round_half_even_nonneg; [lia|]. apply Z.pow_pos_nonneg; lia.
Qed.

(** [tenths m e] is the number of tenths nearest to [m * 2^e], the even one
    of the two on a tie. *)
Lemma tenths_is_nearest m e :
  (0 <= e /\ tenths m e = 10 * Z.pos m * 2 ^ e)
  \/ (e < 0
      /\ 2 * Z.abs (tenths m e * 2 ^ (- e) - 10 * Z.pos m) <= 2 ^ (- e)
      /\ (2 * Z.abs (tenths m e * 2 ^ (- e) - 10 * Z.pos m) = 2 ^ (- e) ->
          Z.even (tenths m e) = true)).
Proof.
  unfold tenths. destruct (0 <=? e) eqn:He.
  - left. split; [lia|reflexivity].
  - right. assert (Hd : 0 < 2 ^ (- e)) by (apply Z.pow_pos_nonneg; lia).
    split; [lia|]. split.
    + now apply round_half_even_nearest.
    + now apply round_half_even_tie.
Qed.

(** * The claims *)

(** C3.  The tier is chosen by fixed half-open thresholds: an estimate below
    100 is Low Emissions / green / check mark, one from 100 up to but not
    including 180 is Moderate Emissions / orange / warning sign, one of 180 or
    more is High Emissions / red / cross; 99.9 is Low, 100.0 and 179.9 are
    Moderate, 180.0 is High. *)
Theorem C3_tier_thresholds :
  (forall p : float,
      ((p <? 100)%float = true ->
       emission_tier p =
       {| emission_color := "green"; emission_icon := "✅";
          emission_message := "Low Emissions" |})
      /\ ((100 <=? p)%float = true -> (p <? 180)%float = true ->
          emission_tier p =
          {| emission_color := "orange"; emission_icon := "⚠️";
             emission_message := "Moderate Emissions" |})
      /\ ((180 <=? p)%float = true ->
          emission_tier p =
          {| emission_color := "red"; emission_icon := "❌";
             emission_message := "High Emissions" |}))
  /\ emission_tier 99.9 = low_tier
  /\ emission_tier 100.0 = moderate_tier
  /\ emission_tier 179.9 = moderate_tier
  /\ emission_tier 180.0 = high_tier.
Proof.
  split; [|repeat split; vm_compute; reflexivity].
  intros p. unfold emission_tier. repeat split.
  - intros ->. reflexivity.
  - intros Hlo Hhi. now rewrite (leb_not_ltb _ _ Hlo), Hhi.
  - intros Hhi.
    rewrite (above_not_below 100 180 p) by (reflexivity || exact Hhi).
    now rewrite (leb_not_ltb _ _ Hhi).
Qed.

(** C8.  The result presenter is pure and deterministic: what it draws is
    fixed by the fuel type and the estimate alone; it reads nothing of the
    session, always returns, and leaves the call log and the cache as they
    were. *)
Theorem C8_presenter_depends_on_fuel_and_estimate_only :
  forall (fuel : value) (p : float),
  exists drawn : list (container * element),
    Forall (fun ce => fst ce = Col2) drawn
    /\ forall s : Session,
         display_result fuel p s =
         (Ok tt, {| screen := screen s ++ drawn;
                    predict_log := predict_log s;
                    resource_cache := resource_cache s |}).
Proof.
  intros fuel p. exists (in_col2 (shown fuel p)). split.
  - unfold in_col2. apply Forall_forall. intros ce Hin.
    apply in_map_iff in Hin. destruct Hin as (e & <- & _). reflexivity.
  - intros s. rewrite display_result_run. f_equal; same_session.
Qed.

(** ** What the results column shows, by case *)

Lemma view_with_estimate m fv p rest :
  submitted fv = true ->
  predict m (input_data fv) = Ok (p :: rest) ->
  results_view (Some m) fv =
  (Ok tt, Subheader "Prediction Results" :: shown (fuel_type fv) p, [input_data fv]).
Proof. intros Hs Hp. unfold results_view. now rewrite Hs, Hp. Qed.

Lemma tips_shown fuel p :
  existsb is_tips (shown fuel p) = negb (eq_str fuel "Electric") && (150 <? p)%float.
Proof.
  unfold shown. destruct (eq_str fuel "Electric"); [reflexivity|].
  destruct (150 <? p)%float; reflexivity.
Qed.

Lemma charts_shown fuel p :
  charts (shown fuel p) =
  if eq_str fuel "Electric" then [] else [comparison_chart (emission_tier p) p].
Proof.
  unfold shown. destruct (eq_str fuel "Electric"); [reflexivity|].
  destruct (150 <? p)%float; reflexivity.
Qed.

Lemma failed_load_leaves_no_model w e :
  load_failure w None = Some e -> loaded_model w None = None.
Proof.
  unfold load_failure, loaded_model.
  destruct (urlretrieve w _) as [fetched|]; [|reflexivity].
  destruct (joblib_load w _); [discriminate|reflexivity].
Qed.

Lemma bounded_value_in_range lo hi d held :
  in_range lo hi d = true -> in_range lo hi (bounded_value lo hi d held) = true.
Proof.
  intros Hd. unfold bounded_value. destruct held as [v|]; [|exact Hd].
  destruct (in_range lo hi v) eqn:Hv; assumption.
Qed.

Lemma fuel_in_options sel :
  let v := chosen fuel_options (VStr "Petrol") sel in
  (eq_str v "Petrol" || eq_str v "Diesel" || eq_str v "Hybrid" || eq_str v "Electric")
  = true.
Proof. destruct sel as [i|]; [do 5 (destruct i as [|i]; [reflexivity|])|]; reflexivity. Qed.

Lemma engine_in_options sel :
  existsb (value_eqb (chosen engine_options (VInt 2000) sel)) engine_options = true.
Proof. destruct sel as [i|]; [do 16 (destruct i as [|i]; [reflexivity|])|]; reflexivity. Qed.

Lemma transmission_in_options sel :
  let v := chosen transmission_options (VStr "Manual") sel in
  (eq_str v "Manual" || eq_str v "Automatic") = true.
Proof. destruct sel as [i|]; [do 3 (destruct i as [|i]; [reflexivity|])|]; reflexivity. Qed.

(** ** C1 *)




(** ** C2 *)

(** C2.  When the fetch or the unpickling raises, [load_model] catches it,
    shows "Error loading model: ..." and leaves [None] as the model, kept for
    the rest of the process; the next submission then raises AttributeError at
    [model.predict], uncaught: the results column shows its heading and
    nothing else, and no call reaches a predictor. *)
Theorem C2_submit_after_failed_load_raises :
  forall w b0 b e,
    load_failure w None = Some e ->
    submitted (form_values b) = true ->
    let first := rerun w b0 None in
    let second := rerun w b (resource_cache (snd first)) in
    In (ErrorBox ("Error loading model: " ++ exn_str e)) (pane Page (snd first))
    /\ resource_cache (snd first) = Some None
    /\ fst second = Raise (AttributeError "'NoneType' object has no attribute 'predict'")
    /\ pane Col2 (snd second) = [Subheader "Prediction Results"]
    /\ predict_log (snd second) = [].
Proof.
  intros w b0 b e Hfail Hs. cbv zeta.
  destruct (rerun_view w b0 None) as (_ & _ & _ & _ & _ & Hcache & Herr).
  rewrite (failed_load_leaves_no_model _ _ Hfail) in Hcache.
  rewrite Hcache.
  destruct (rerun_view w b (Some None)) as (Hout & Hpane & Hlog & _).
  cbn [loaded_model] in *. unfold results_view in *. rewrite Hs in *.
  repeat split; try assumption.
  apply Herr. unfold load_errors. rewrite Hfail. now left.
Qed.

Lemma C2_submit_after_failed_load_raises_witness :
  let e := LibraryError "unknown url type: 'co2_emission_predictor_rf.pkl'" in
  (load_failure offline None = Some e
   /\ submitted (form_values defaults_submitted) = true)
  /\ fst (rerun offline defaults_submitted (resource_cache (snd (rerun offline untouched None))))
     = Raise (AttributeError "'NoneType' object has no attribute 'predict'").
Proof.
  cbv zeta. split; [split; reflexivity|].
  apply (C2_submit_after_failed_load_raises offline untouched defaults_submitted
           (LibraryError "unknown url type: 'co2_emission_predictor_rf.pkl'"));
    reflexivity.
Defined.

(** ** C4 *)

(** C4.  For every submitted request whose fuel type is not Electric and whose
    predictor call returns an estimate, the run ends normally and the results
    column shows that estimate and no other number.  The result box reads
    icon, space, number, " g/km", where the number is the estimate rounded to
    one decimal place: for a finite estimate [mant * 2^e] the sign it carries,
    then the whole part, a point and the last digit of the number of tenths
    nearest to its exact value (the even one on a tie); "nan", "inf" or
    "-inf", "0.0" or "-0.0" otherwise.  The fourth row of the chart's table
    holds the estimate unchanged. *)
Theorem C4_displayed_estimate_is_raw_output :
  forall w b cache m p rest,
    submitted (form_values b) = true ->
    eq_str (fuel_type (form_values b)) "Electric" = false ->
    loaded_model w cache = Some m ->
    predict m (input_data (form_values b)) = Ok (p :: rest) ->
    fst (rerun w b cache) = Ok tt
    /\ pane Col2 (snd (rerun w b cache)) =
       [Subheader "Prediction Results";
        Markdown (result_box (emission_tier p) p) true;
        Markdown "### How does this compare?" false;
        Pyplot (comparison_chart (emission_tier p) p)]
       ++ (if (150 <? p)%float
           then [WarningBox tips_heading; Markdown tips_list false]
           else [])
    /\ (exists number : string,
          nth_error (pane Col2 (snd (rerun w b cache))) 1 =
          Some (Markdown
                  ("
            <div style='background-color:#f0f2f6; padding:20px; border-radius:10px;'>
                <h2 style='color:" ++ emission_color (emission_tier p) ++ "; text-align:center;'>
                    " ++ (emission_icon (emission_tier p) ++ " " ++ number ++ " g/km") ++ "
                </h2>
                <p style='text-align:center; font-size:18px;'>" ++ emission_message (emission_tier p) ++ "</p>
            </div>
            ")%string true)
          /\ match Prim2SF p with
             | S754_nan => number = "nan"%string
             | S754_infinity sgn => number = (if sgn then "-inf" else "inf")%string
             | S754_zero sgn => number = (if sgn then "-0.0" else "0.0")%string
             | S754_finite sgn mant e =>
                 exists t : Z,
                   0 <= t
                   /\ ((0 <= e /\ t = 10 * Z.pos mant * 2 ^ e)
                       \/ (e < 0
                           /\ 2 * Z.abs (t * 2 ^ (- e) - 10 * Z.pos mant) <= 2 ^ (- e)
                           /\ (2 * Z.abs (t * 2 ^ (- e) - 10 * Z.pos mant) = 2 ^ (- e) ->
                               Z.even t = true)))
                   /\ number =
                      ((if sgn then "-" else "")
                       ++ NilZero.string_of_int (Z.to_int (t / 10)) ++ "."
                       ++ NilZero.string_of_int (Z.to_int (t mod 10)))%string
             end)
    /\ column "CO₂ Emissions (g/km)" (data (comparison_chart (emission_tier p) p)) =
       [VInt 120; VInt 150; VInt 200; VFloat p].
Proof.
  intros w b cache m p rest Hs He Hm Hp.
  destruct (rerun_view w b cache) as (Hout & Hpane & _).
  rewrite Hm, (view_with_estimate _ _ _ _ Hs Hp) in *.
  rewrite Hout, Hpane. unfold shown. rewrite He.
  split; [reflexivity|]. split; [reflexivity|]. split; [|reflexivity].
  exists (format_1f p). split; [reflexivity|].
  unfold format_1f. destruct (Prim2SF p) as [sgn|sgn| |sgn mant e].
  - now destruct sgn.
  - now destruct sgn.
  - reflexivity.
  - exists (tenths mant e). split; [apply tenths_nonneg|].
    split; [apply tenths_is_nearest|reflexivity].
Qed.

Lemma C4_displayed_estimate_is_raw_output_witness :
  let w := world_with (stub_predictor 142.3) in
  let b := defaults_submitted in
  (submitted (form_values b) = true
   /\ eq_str (fuel_type (form_values b)) "Electric" = false
   /\ loaded_model w None = Some (stub_predictor 142.3)
   /\ predict (stub_predictor 142.3) (input_data (form_values b)) = Ok [142.3%float])
  /\ fst (rerun w b None) = Ok tt
  /\ nth_error (pane Col2 (snd (rerun w b None))) 1 =
     Some (Markdown "
            <div style='background-color:#f0f2f6; padding:20px; border-radius:10px;'>
                <h2 style='color:orange; text-align:center;'>
                    ⚠️ 142.3 g/km
                </h2>
                <p style='text-align:center; font-size:18px;'>Moderate Emissions</p>
            </div>
            " true).
Proof.
  cbv zeta. split; [repeat split; reflexivity|].
  split; [|vm_compute; reflexivity].
  apply (C4_displayed_estimate_is_raw_output
           (world_with (stub_predictor 142.3)) defaults_submitted None
           (stub_predictor 142.3) 142.3%float []); reflexivity.
Defined.

(** ** C5 *)


(** ** C6 *)

(** C6, as stated, fails: when the estimate is NaN the chart is rendered and
    has three bars, the reference ones, seaborn leaving out the row whose
    height is not a finite number. *)
Lemma C6_chart_of_a_nan_estimate_has_three_bars :
  map (fun fig => List.length (bars fig))
      (charts_rendered
         (snd (rerun (world_with (stub_predictor nan)) defaults_submitted None)))
  = [3%nat].
Proof. vm_compute. reflexivity. Qed.

(** C6, amended.  Every chart a run renders is given a table of exactly four
    rows: 120, 150 and 200 labelled "Small Petrol Car", "Average Diesel Car"
    and "SUV", then the run's estimate labelled "Your Vehicle", and a palette
    whose fourth entry is the colour of the estimate's tier.  When the
    estimate is finite the chart has exactly these four bars; when it is NaN
    or infinite it has the three reference bars only. *)
Theorem C6_chart_rows_and_bars :
  forall w b cache fig,
    In fig (charts_rendered (snd (rerun w b cache))) ->
    exists m p rest,
      loaded_model w cache = Some m
      /\ predict m (input_data (form_values b)) = Ok (p :: rest)
      /\ column (x_column fig) (data fig) =
         [VStr "Small Petrol Car"; VStr "Average Diesel Car"; VStr "SUV";
          VStr "Your Vehicle"]
      /\ column (y_column fig) (data fig) = [VInt 120; VInt 150; VInt 200; VFloat p]
      /\ palette fig =
         ["#1f77b4"; "#1f77b4"; "#1f77b4"; emission_color (emission_tier p)]%string
      /\ (is_finite p = true ->
          bars fig =
          [(VStr "Small Petrol Car", VInt 120, "#1f77b4"%string);
           (VStr "Average Diesel Car", VInt 150, "#1f77b4"%string);
           (VStr "SUV", VInt 200, "#1f77b4"%string);
           (VStr "Your Vehicle", VFloat p, emission_color (emission_tier p))])
      /\ (is_finite p = false ->
          bars fig =
          [(VStr "Small Petrol Car", VInt 120, "#1f77b4"%string);
           (VStr "Average Diesel Car", VInt 150, "#1f77b4"%string);
           (VStr "SUV", VInt 200, "#1f77b4"%string)]).
Proof.
  intros w b cache fig.
  destruct (rerun_view w b cache) as (_ & _ & _ & _ & -> & _).
  unfold results_view.
  destruct (submitted _) eqn:Hs; [|intros []].
  destruct (loaded_model w cache) as [m|] eqn:Hm; [|intros []].
  destruct (predict m _) as [[|p rest]|e] eqn:Hp; try (intros []).
  cbn [fst snd charts]. rewrite charts_shown.
  destruct (eq_str _ "Electric"); [intros []|].
  intros [<-|[]]. exists m, p, rest.
  split; [reflexivity|]. split; [exact Hp|]. do 3 (split; [reflexivity|]).
  split; intros Hfin; unfold bars, comparison_chart, comparison_data;
    cbn [x_column y_column data palette column String.eqb Ascii.eqb Bool.eqb
         combine filter draws_bar fst snd];
    rewrite Hfin; reflexivity.
Qed.

Lemma C6_chart_rows_and_bars_witness :
  let w := world_with (stub_predictor 210.7) in
  let fig := comparison_chart (emission_tier 210.7) 210.7 in
  In fig (charts_rendered (snd (rerun w defaults_submitted None)))
  /\ column (x_column fig) (data fig) =
     [VStr "Small Petrol Car"; VStr "Average Diesel Car"; VStr "SUV";
      VStr "Your Vehicle"].
Proof.
  cbv zeta.
  assert (H : In (comparison_chart (emission_tier 210.7) 210.7)
                 (charts_rendered
                    (snd (rerun (world_with (stub_predictor 210.7))
                            defaults_submitted None)))).
  { vm_compute. left. reflexivity. }
  split; [exact H|].
  destruct (C6_chart_rows_and_bars _ _ _ _ H) as (m & p & rest & _ & _ & Hx & _).
  exact Hx.
Defined.

(** ** C7 *)

(** C7.  Whatever the browser holds, the form returns a request inside the
    declared domains: the model year an integer from 1985 to 2025, the fuel
    type one of Petrol, Diesel, Hybrid, Electric, the kilometres an integer
    from 0 to 500000, the engine size one of the listed displacements, the
    transmission Manual or Automatic; and a predictor is only ever called on
    the feature record of such a request. *)
Theorem C7_request_within_declared_domains :
  forall w b cache,
    (forall s, fst (prediction_form b s) = Ok (form_values b))
    /\ request_in_domain (form_values b) = true
    /\ Forall (fun df => df = input_data (form_values b))
              (predict_log (snd (rerun w b cache))).
Proof.
  intros w b cache. split; [|split].
  - intros s. now rewrite prediction_form_run.
  - unfold request_in_domain, form_values, int_between.
    cbn [model_year fuel_type kms_driven engine_cc transmission].
    pose proof (bounded_value_in_range 1985 2025 2018 (slider_value b "Model Year")
                  eq_refl) as Hy.
    pose proof (bounded_value_in_range 0 500000 50000
                  (number_value b "Kilometers Driven") eq_refl) as Hk.
    unfold in_range in Hy, Hk. rewrite Hy, Hk.
    rewrite (fuel_in_options (selected_index b "Fuel Type")).
    rewrite (engine_in_options (selected_index b "Engine Size (cc)")).
    rewrite (transmission_in_options (selected_index b "Transmission Type")).
    reflexivity.
  - destruct (predict_log_cases w b cache) as [-> | ->]; repeat constructor.
Qed.

(** ** C9 *)

(** C9, as stated, fails: with a predictor whose [predict] raises, a submitted
    Electric request renders no "0 g/km": the run ends in the exception and
    the results column holds its heading only. *)
Lemma C9_electric_with_raising_predictor_shows_nothing :
  eq_str (fuel_type (form_values electric_submitted)) "Electric" = true
  /\ fst (rerun (world_with broken_predictor) electric_submitted None)
     = Raise (LibraryError "predict was called")
  /\ pane Col2 (snd (rerun (world_with broken_predictor) electric_submitted None))
     = [Subheader "Prediction Results"]
  /\ ~ In (SuccessBox "## 🎉 0 g/km")
          (map snd (screen (snd (rerun (world_with broken_predictor)
                                   electric_submitted None)))).
Proof.
  split; [reflexivity|]. split; [reflexivity|]. split; [reflexivity|].
  vm_compute. intros H.
  repeat (destruct H as [H|H]; [discriminate H|]). exact H.
Qed.

(** C9, amended.  For every submitted request with fuel type Electric, no run
    renders the comparison chart or the tips block; and when the predictor
    call returns an estimate, whatever it is, the results column shows
    "0 g/km" with the fixed message and nothing else. *)
Theorem C9_electric_output :
  forall w b cache,
    submitted (form_values b) = true ->
    eq_str (fuel_type (form_values b)) "Electric" = true ->
    charts_rendered (snd (rerun w b cache)) = []
    /\ tips_rendered (snd (rerun w b cache)) = false
    /\ forall m p rest,
         loaded_model w cache = Some m ->
         predict m (input_data (form_values b)) = Ok (p :: rest) ->
         fst (rerun w b cache) = Ok tt
         /\ pane Col2 (snd (rerun w b cache)) =
            [Subheader "Prediction Results";
             SuccessBox "## 🎉 0 g/km";
             Markdown "Electric vehicles produce zero direct CO₂ emissions!" false].
Proof.
  intros w b cache Hs He.
  destruct (rerun_view w b cache) as (Hout & Hpane & _ & Htips & Hcharts & _).
  rewrite Hout, Hpane, Htips, Hcharts. clear Hout Hpane Htips Hcharts.
  split; [|split].
  - unfold results_view. rewrite Hs.
    destruct (loaded_model w cache) as [m|]; [|reflexivity].
    destruct (predict m _) as [[|p rest]|e]; try reflexivity.
    cbn [fst snd charts]. now rewrite charts_shown, He.
  - unfold results_view. rewrite Hs.
    destruct (loaded_model w cache) as [m|]; [|reflexivity].
    destruct (predict m _) as [[|p rest]|e]; try reflexivity.
    cbn [fst snd existsb is_tips orb]. now rewrite tips_shown, He.
  - intros m p rest Hm Hp.
    rewrite Hm, (view_with_estimate _ _ _ _ Hs Hp). unfold shown. rewrite He.
    split; reflexivity.
Qed.

Lemma C9_electric_output_witness :
  let w := world_with (stub_predictor 210.7) in
  let b := electric_submitted in
  (submitted (form_values b) = true
   /\ eq_str (fuel_type (form_values b)) "Electric" = true)
  /\ charts_rendered (snd (rerun w b None)) = []
  /\ tips_rendered (snd (rerun w b None)) = false.
Proof.
  cbv zeta. split; [split; reflexivity|].
  destruct (C9_electric_output (world_with (stub_predictor 210.7)) electric_submitted
              None eq_refl eq_refl) as (Hc & Ht & _).
  split; [exact Hc | exact Ht].
Defined.

(** ** C10 *)

(** C10.  The feature record handed to the predictor is a table of one row
    with the columns Model_Year, Fuel_Type, KMs_Driven, Engine_CC,
    Transmission_Type in that order, each holding what the corresponding
    control of the form returned; a submission with a loaded model hands over
    exactly one such record, and no run hands over any other. *)
Theorem C10_feature_record_shape :
  forall w b cache,
    (forall s, fst (prediction_form b s) = Ok (form_values b))
    /\ Forall (fun df =>
                 columns df = ["Model_Year"; "Fuel_Type"; "KMs_Driven"; "Engine_CC";
                               "Transmission_Type"]%string
                 /\ map snd df = [[model_year (form_values b)];
                                  [fuel_type (form_values b)];
                                  [kms_driven (form_values b)];
                                  [engine_cc (form_values b)];
                                  [transmission (form_values b)]])
              (predict_log (snd (rerun w b cache)))
    /\ (List.length (predict_log (snd (rerun w b cache))) <= 1)%nat
    /\ (submitted (form_values b) = true ->
        (exists m, loaded_model w cache = Some m) ->
        List.length (predict_log (snd (rerun w b cache))) = 1%nat).
Proof.
  intros w b cache. split; [|split; [|split]].
  - intros s. now rewrite prediction_form_run.
  - destruct (predict_log_cases w b cache) as [-> | ->]; repeat constructor.
  - destruct (predict_log_cases w b cache) as [-> | ->]; cbn; lia.
  - intros Hs (m & Hm).
    destruct (rerun_view w b cache) as (_ & _ & -> & _).
    rewrite Hm. unfold results_view. rewrite Hs.
    destruct (predict m _) as [[|p rest]|e]; reflexivity.
Qed.

(** ** The end-to-end scenarios of the spec *)

(** Scenario A: the defaults with a stub returning 142.3 show
    "⚠️ 142.3 g/km", Moderate, and no tips. *)
Example scenario_A :
  let s := snd (rerun (world_with (stub_predictor 142.3)) defaults_submitted None) in
  predict_log s =
  [[("Model_Year", [VInt 2018]); ("Fuel_Type", [VStr "Petrol"]);
    ("KMs_Driven", [VInt 50000]); ("Engine_CC", [VInt 2000]);
    ("Transmission_Type", [VStr "Manual"])]]%string
  /\ headline (emission_tier 142.3) 142.3 = "⚠️ 142.3 g/km"%string
  /\ emission_tier 142.3 = moderate_tier
  /\ tips_rendered s = false.
Proof. cbv zeta. repeat split; vm_compute; reflexivity. Qed.

(** Scenario C: a raw output of 210.7 shows "❌ 210.7 g/km", High, with tips. *)
Example scenario_C :
  let s := snd (rerun (world_with (stub_predictor 210.7)) defaults_submitted None) in
  headline (emission_tier 210.7) 210.7 = "❌ 210.7 g/km"%string
  /\ emission_tier 210.7 = high_tier
  /\ tips_rendered s = true.
Proof. cbv zeta. repeat split; vm_compute; reflexivity. Qed.

(** * Further properties of the script *)

(** ** Reading any container of a run *)

Lemma pane_of_elsewhere_in_col2 c l : c <> Col2 -> pane_of c (in_col2 l) = [].
Proof.
  intros Hc. unfold in_col2, pane_of.
  induction l as [|e l IH]; [reflexivity|].
  cbn. destruct c; try exact IH. now elim Hc.
Qed.

Lemma ltb_leb (a b : float) : (a <? b)%float = true -> (a <=? b)%float = true.
Proof.
  rewrite ltb_spec, leb_spec. unfold SFltb, SFleb.
  destruct (SFcompare (Prim2SF a) (Prim2SF b)) as [[]|]; congruence.
Qed.

Lemma SFcompare_defined a b :
  a <> S754_nan -> b <> S754_nan -> exists c, SFcompare a b = Some c.
Proof.
  intros Ha Hb.
  destruct a as [sa|sa| |sa ma ea], b as [sb|sb| |sb mb eb]; cbn;
    try congruence; eexists; reflexivity.
Qed.

Lemma not_nan_spec (p : float) : is_nan p = false -> Prim2SF p <> S754_nan.
Proof.
  unfold is_nan. rewrite eqb_spec. unfold SFeqb. intros H Hn.
  rewrite Hn in H. discriminate H.
Qed.

(** Among numbers, [p < c] failing means [c <= p]. *)
Lemma not_ltb_leb (p c : float) :
  is_nan p = false -> is_nan c = false ->
  (p <? c)%float = false -> (c <=? p)%float = true.
Proof.
  intros Hp Hc. rewrite ltb_spec, leb_spec. unfold SFltb, SFleb.
  rewrite (SFcompare_antisym (Prim2SF p) (Prim2SF c)).
  destruct (SFcompare_defined _ _ (not_nan_spec _ Hp) (not_nan_spec _ Hc)) as (x & ->).
  destruct x; cbn; congruence.
Qed.

(** ** X1: [load_model] *)

(** X1.  No exception of class [Exception] leaves [load_model].  It asks the
    fetch for "co2_emission_predictor_rf.pkl" and unpickles the file the fetch
    names: when both succeed it returns the predictor the unpickling gave and
    draws nothing; when either raises [e] it returns [None] after drawing one
    error box that reads "Error loading model: " followed by the text of
    [e]. *)
Theorem load_model_returns_model_or_reports :
  forall (w : World) (s : Session),
    load_model w s =
    match urlretrieve w "co2_emission_predictor_rf.pkl" with
    | Ok fetched =>
        match joblib_load w (fst fetched) with
        | Ok m => (Ok (Some m), s)
        | Raise e =>
            (Ok None,
             {| screen := screen s
                          ++ [(Page, ErrorBox ("Error loading model: " ++ exn_str e))];
                predict_log := predict_log s;
                resource_cache := resource_cache s |})
        end
    | Raise e =>
        (Ok None,
         {| screen := screen s
                      ++ [(Page, ErrorBox ("Error loading model: " ++ exn_str e))];
            predict_log := predict_log s;
            resource_cache := resource_cache s |})
    end.
Proof.
  intros w s. unfold load_model, try_except, bind, lift, ret, st_error, emit.
  destruct (urlretrieve w _) as [fetched|e]; [|reflexivity].
  destruct (joblib_load w _) as [m|e]; reflexivity.
Qed.

(** ** X2: what is fetched *)

(** X2.  [load_model] asks the fetch for the file name
    "co2_emission_predictor_rf.pkl" and for nothing else: two worlds that
    answer alike for that name and unpickle alike give the same result,
    whatever they serve at the download link of line 22. *)
Theorem load_model_fetches_the_file_name_only :
  forall (w1 w2 : World) (s : Session),
    urlretrieve w1 "co2_emission_predictor_rf.pkl"
    = urlretrieve w2 "co2_emission_predictor_rf.pkl" ->
    (forall f, joblib_load w1 f = joblib_load w2 f) ->
    load_model w1 s = load_model w2 s.
Proof.
  intros w1 w2 s Hfetch Hload.
  unfold load_model, try_except, bind, lift. rewrite Hfetch.
  destruct (urlretrieve w2 _) as [fetched|e]; [|reflexivity].
  now rewrite Hload.
Qed.

Lemma load_model_fetches_the_file_name_only_witness :
  let w1 := drive_only (stub_predictor 142.3) in
  let w2 := {| urlretrieve := urlretrieve offline;
               joblib_load := joblib_load (drive_only (stub_predictor 142.3)) |} in
  (urlretrieve w1 drive_url = Ok ("/tmp/model.pkl", "")%string
   /\ urlretrieve w1 "co2_emission_predictor_rf.pkl"
      = urlretrieve w2 "co2_emission_predictor_rf.pkl"
   /\ (forall f, joblib_load w1 f = joblib_load w2 f))
  /\ load_model w1 blank = load_model w2 blank
  /\ fst (load_model w1 blank) = Ok None.
Proof.
  cbv zeta. split; [repeat split; reflexivity|].
  split; [|reflexivity].
  apply (load_model_fetches_the_file_name_only
           (drive_only (stub_predictor 142.3))
           {| urlretrieve := urlretrieve offline;
              joblib_load := joblib_load (drive_only (stub_predictor 142.3)) |}
           blank); reflexivity.
Defined.

(** ** X3: the cache *)

(** X3.  The result of the first load is kept for the process, a failure
    included: after any run, every later run binds [model] to what that run
    bound it to, in whatever world it runs, so a load that failed is never
    tried again. *)
Theorem loaded_model_is_kept :
  forall (w w' : World) (b b' : Browser) (cache : option (option Predictor)),
    let kept := resource_cache (snd (rerun w b cache)) in
    kept = Some (loaded_model w cache)
    /\ loaded_model w' kept = loaded_model w cache
    /\ resource_cache (snd (rerun w' b' kept)) = kept
    /\ fst (rerun w' b' kept) = fst (rerun w b' kept)
    /\ pane Col2 (snd (rerun w' b' kept)) = pane Col2 (snd (rerun w b' kept))
    /\ predict_log (snd (rerun w' b' kept)) = predict_log (snd (rerun w b' kept)).
Proof.
  intros w w' b b' cache. cbv zeta.
  destruct (rerun_view w b cache) as (_ & _ & _ & _ & _ & Hc & _).
  rewrite Hc. split; [reflexivity|]. split; [reflexivity|].
  destruct (rerun_view w' b' (Some (loaded_model w cache)))
    as (Ho' & Hp' & Hl' & _ & _ & Hc' & _).
  destruct (rerun_view w b' (Some (loaded_model w cache)))
    as (Ho & Hp & Hl & _).
  cbn [loaded_model] in *.
  rewrite Ho', Hp', Hl', Ho, Hp, Hl. repeat split; try reflexivity. exact Hc'.
Qed.

(** ** X4 to X6: how a run ends *)

(** X4.  A run in which the button has not been pressed ends normally, calls
    no predictor and shows the heading of the results column alone, whether or
    not a model could be loaded. *)
Theorem unsubmitted_run_is_quiet :
  forall w b cache,
    submitted (form_values b) = false ->
    fst (rerun w b cache) = Ok tt
    /\ pane Col2 (snd (rerun w b cache)) = [Subheader "Prediction Results"]
    /\ predict_log (snd (rerun w b cache)) = [].
Proof.
  intros w b cache Hs.
  destruct (rerun_view w b cache) as (-> & -> & -> & _).
  unfold results_view. rewrite Hs. repeat split.
Qed.

Lemma unsubmitted_run_is_quiet_witness :
  submitted (form_values untouched) = false
  /\ fst (rerun offline untouched None) = Ok tt
  /\ predict_log (snd (rerun offline untouched None)) = [].
Proof.
  split; [reflexivity|].
  destruct (unsubmitted_run_is_quiet offline untouched None eq_refl) as (Ho & _ & Hl).
  split; [exact Ho | exact Hl].
Defined.

(** X5.  A run ends normally exactly when the button has not been pressed or
    a model is loaded and its [predict] returns an array with a first
    element. *)
Theorem run_ends_normally_iff :
  forall w b cache,
    fst (rerun w b cache) = Ok tt
    <-> submitted (form_values b) = false
        \/ exists m p rest,
             loaded_model w cache = Some m
             /\ predict m (input_data (form_values b)) = Ok (p :: rest).
Proof.
  intros w b cache.
  destruct (rerun_view w b cache) as (-> & _).
  unfold results_view.
  destruct (submitted _) eqn:Hs; [|split; [now left|reflexivity]].
  destruct (loaded_model w cache) as [m|] eqn:Hm.
  - destruct (predict m _) as [[|p rest]|e] eqn:Hp; cbn [fst]; split;
      try discriminate; try reflexivity.
    + intros [H|(m' & p' & rest' & Hm' & Hp')]; [discriminate H|].
      injection Hm' as <-. rewrite Hp in Hp'. discriminate Hp'.
    + intros _. right. exists m, p, rest. now split.
    + intros [H|(m' & p' & rest' & Hm' & Hp')]; [discriminate H|].
      injection Hm' as <-. rewrite Hp in Hp'. discriminate Hp'.
  - cbn [fst]. split; [discriminate|].
    intros [H|(m' & p' & rest' & Hm' & _)]; discriminate.
Qed.

(** X6.  When a run ends in an exception, the exception is the AttributeError
    of a missing model, the IndexError of an empty array, or the one [predict]
    raised, passed on unchanged; the results column then shows its heading and
    nothing else, and the reference panels below are not drawn. *)
Theorem failed_run_shows_nothing :
  forall w b cache e,
    fst (rerun w b cache) = Raise e ->
    pane Col2 (snd (rerun w b cache)) = [Subheader "Prediction Results"]
    /\ pane ColInfo1 (snd (rerun w b cache)) = []
    /\ pane ColInfo2 (snd (rerun w b cache)) = []
    /\ pane ColInfo3 (snd (rerun w b cache)) = []
    /\ ((loaded_model w cache = None
         /\ e = AttributeError "'NoneType' object has no attribute 'predict'")
        \/ exists m,
             loaded_model w cache = Some m
             /\ (predict m (input_data (form_values b)) = Raise e
                 \/ (predict m (input_data (form_values b)) = Ok []
                     /\ e = IndexError "index 0 is out of bounds for axis 0 with size 0"))).
Proof.
  intros w b cache e Hout.
  destruct (rerun_view w b cache) as (Ho & Hp & _).
  rewrite Hp. clear Hp.
  pose proof (rerun_run w b cache) as Hrun. cbv zeta in Hrun.
  rewrite Hout in Ho.
  unfold pane. rewrite Hrun. cbn [snd screen]. rewrite <- Ho.
  autorewrite with page.
  rewrite !pane_of_elsewhere_in_col2 by discriminate.
  assert (Hq : forall c, c = ColInfo1 \/ c = ColInfo2 \/ c = ColInfo3 ->
                 pane_of c (opening w cache) = [] /\ pane_of c (form_controls b) = []).
  { intros c Hc. unfold opening, load_errors.
    destruct (load_failure w cache); destruct Hc as [-> | [-> | ->]];
      split; reflexivity. }
  destruct (Hq ColInfo1) as (-> & ->); [now left|].
  destruct (Hq ColInfo2) as (-> & ->); [right; now left|].
  destruct (Hq ColInfo3) as (-> & ->); [right; now right|].
  clear Hq Hrun. unfold results_view in *.
  destruct (submitted _); [|discriminate Ho].
  destruct (loaded_model w cache) as [m|].
  - destruct (predict m _) as [[|p rest]|e'] eqn:Hpr; cbn [fst snd] in *;
      try discriminate Ho; injection Ho as <-; repeat split; right; exists m;
      (split; [reflexivity|]);
      first [left; exact Hpr | right; split; [exact Hpr | reflexivity]].
  - cbn [fst snd] in *. injection Ho as <-. repeat split. left. now split.
Qed.

Lemma failed_run_shows_nothing_witness :
  fst (rerun (world_with broken_predictor) defaults_submitted None)
  = Raise (LibraryError "predict was called")
  /\ pane Col2 (snd (rerun (world_with broken_predictor) defaults_submitted None))
     = [Subheader "Prediction Results"].
Proof.
  split; [reflexivity|].
  apply (failed_run_shows_nothing (world_with broken_predictor) defaults_submitted
           None (LibraryError "predict was called")).
  reflexivity.
Defined.

(** ** X7 to X9: the fixed parts of the page *)

Lemma pane_elsewhere w b cache c :
  c <> Col2 ->
  pane c (snd (rerun w b cache)) =
  pane_of c (opening w cache) ++ pane_of c (form_controls b)
  ++ pane_of c match fst (rerun w b cache) with Ok _ => footer | Raise _ => [] end.
Proof.
  intros Hc. pose proof (rerun_run w b cache) as Hrun. cbv zeta in Hrun.
  unfold pane. rewrite Hrun. cbn [fst snd screen].
  autorewrite with page. now rewrite (pane_of_elsewhere_in_col2 _ _ Hc).
Qed.

(** X7.  [st.set_page_config] is the first thing every run draws; on the
    run that loads the model this holds also when [load_model] has something
    to report: its error box comes second on the page, and the title right
    after. *)
Theorem page_config_comes_first :
  forall w b cache,
    hd_error (screen (snd (rerun w b cache)))
    = Some (Page, PageConfig "CO₂ Predictor" "🌿" "wide" "expanded")
    /\ match load_failure w None with
       | Some e =>
           nth_error (pane Page (snd (rerun w b None))) 1
           = Some (ErrorBox ("Error loading model: " ++ exn_str e))
           /\ nth_error (pane Page (snd (rerun w b None))) 2
              = Some (Title "🚗 CO₂ Emission Predictor")
       | None =>
           nth_error (pane Page (snd (rerun w b None))) 1
           = Some (Title "🚗 CO₂ Emission Predictor")
       end.
Proof.
  intros w b cache. split.
  - pose proof (rerun_run w b cache) as Hrun. cbv zeta in Hrun.
    rewrite Hrun. reflexivity.
  - rewrite (pane_elsewhere w b None Page) by discriminate.
    unfold opening, load_errors.
    destruct (load_failure w None); [split|]; reflexivity.
Qed.

(** X8.  The sidebar and the whole form are drawn by every run, however it
    ends and whether or not a model could be loaded: five elements in the
    sidebar, and in the first column the heading, the five controls with the
    bounds and options of the source, and the submit button. *)
Theorem sidebar_and_form_always_drawn :
  forall w b cache,
    pane Sidebar (snd (rerun w b cache)) = sidebar_panel
    /\ List.length sidebar_panel = 5%nat
    /\ pane Col1 (snd (rerun w b cache)) =
       [Subheader "Vehicle Specifications";
        Control (Slider "Model Year" 1985 2025 2018);
        Control (Selectbox "Fuel Type"
                   [VStr "Petrol"; VStr "Diesel"; VStr "Hybrid"; VStr "Electric"] 0);
        Control (NumberInput "Kilometers Driven" 0 500000 50000 1000);
        Control (Selectbox "Engine Size (cc)"
                   (map VInt [1000; 1200; 1500; 1800; 2000; 2200; 2500; 2800; 3000;
                              3200; 3500; 3800; 4000; 4500; 5000]) 4);
        Control (Radio "Transmission Type" [VStr "Manual"; VStr "Automatic"] 0 true);
        Control (FormSubmitButton "Calculate CO₂ Emissions")].
Proof.
  intros w b cache. split; [|split; [reflexivity|]].
  - rewrite (pane_elsewhere w b cache Sidebar) by discriminate.
    unfold opening, load_errors.
    destruct (load_failure w cache); destruct (fst (rerun w b cache)); reflexivity.
  - rewrite (pane_elsewhere w b cache Col1) by discriminate.
    unfold opening, load_errors.
    destruct (load_failure w cache); destruct (fst (rerun w b cache)); reflexivity.
Qed.

(** X9.  The three reference panels under "Understanding Your Results" are
    drawn when the run ends normally and only then: a run that ends in an
    exception draws none of them. *)
Theorem reference_panels_iff_normal_end :
  forall w b cache,
    List.length reference_panels = 3%nat
    /\ pane ColInfo1 (snd (rerun w b cache)) ++ pane ColInfo2 (snd (rerun w b cache))
       ++ pane ColInfo3 (snd (rerun w b cache))
       = match fst (rerun w b cache) with
         | Ok _ => reference_panels
         | Raise _ => []
         end.
Proof.
  intros w b cache. split; [reflexivity|].
  rewrite (pane_elsewhere w b cache ColInfo1), (pane_elsewhere w b cache ColInfo2),
    (pane_elsewhere w b cache ColInfo3) by discriminate.
  unfold opening, load_errors.
  destruct (load_failure w cache); destruct (fst (rerun w b cache)); reflexivity.
Qed.

(** ** X10: tier and tips together *)

Lemma SFcompare_refl a : a <> S754_nan -> SFcompare a a = Some Eq.
Proof.
  destruct a as [sa|sa| |sa ma ea]; cbn; try congruence; intros _.
  - now destruct sa.
  - rewrite Z.compare_refl.
    change (PosDef.Pos.compare_cont Eq ma ma) with (Pos.compare ma ma).
    rewrite Pos.compare_refl. now destruct sa.
Qed.

Lemma is_nan_spec (p : float) : is_nan p = true -> Prim2SF p = S754_nan.
Proof.
  unfold is_nan. rewrite eqb_spec. unfold SFeqb. intros H.
  destruct (Prim2SF p) as [s|s| |s m e] eqn:Hp; try reflexivity;
    rewrite SFcompare_refl in H by discriminate; discriminate H.
Qed.

Lemma nan_not_below (p c : float) : is_nan p = true -> (p <? c)%float = false.
Proof.
  intros H. rewrite ltb_spec, (is_nan_spec _ H). reflexivity.
Qed.

Lemma nan_not_above (p c : float) : is_nan p = true -> (c <? p)%float = false.
Proof.
  intros H. rewrite ltb_spec, (is_nan_spec _ H). unfold SFltb.
  now destruct (Prim2SF c).
Qed.

(** X10.  The tips go with the tier: an estimate above 150 is never shown as
    Low Emissions, an estimate shown as Low Emissions never gets the tips, and
    an estimate shown as High Emissions always gets them when it is a number;
    NaN alone is shown as High Emissions without the tips. *)
Theorem tips_go_with_the_tier :
  forall p : float,
    ((150 <? p)%float = true ->
     emission_tier p = moderate_tier \/ emission_tier p = high_tier)
    /\ (emission_tier p = low_tier -> (150 <? p)%float = false)
    /\ (is_nan p = false -> emission_tier p = high_tier -> (150 <? p)%float = true)
    /\ (is_nan p = true -> emission_tier p = high_tier /\ (150 <? p)%float = false).
Proof.
  intros p. unfold emission_tier. repeat split.
  - intros H. rewrite (above_not_below 100 150 p eq_refl (ltb_leb _ _ H)).
    destruct (p <? 180)%float; [now left | now right].
  - destruct (p <? 100)%float eqn:Hlow.
    + intros _. destruct (150 <? p)%float eqn:H; [|reflexivity].
      rewrite (above_not_below 100 150 p eq_refl (ltb_leb _ _ H)) in Hlow.
      discriminate Hlow.
    + destruct (p <? 180)%float; discriminate.
  - intros Hnum.
    destruct (p <? 100)%float; [discriminate|].
    destruct (p <? 180)%float eqn:Hhi; [discriminate|]. intros _.
    rewrite ltb_spec.
    apply (SFltb_leb_trans _ (Prim2SF 180)); [reflexivity|].
    rewrite <- leb_spec. now apply not_ltb_leb.
  - now rewrite !nan_not_below.
  - now apply nan_not_above.
Qed.

(** ** X11: what the results column depends on *)

(** X11.  Two submitted runs with the same fuel type whose predictors return
    arrays with the same first element end alike and show the same results
    column, chart and tips included, whatever the other fields of the form,
    the rest of the arrays, the models and the caches are. *)
Theorem results_depend_on_fuel_and_first_estimate :
  forall w1 w2 b1 b2 cache1 cache2 m1 m2 p rest1 rest2,
    submitted (form_values b1) = true ->
    submitted (form_values b2) = true ->
    fuel_type (form_values b1) = fuel_type (form_values b2) ->
    loaded_model w1 cache1 = Some m1 ->
    loaded_model w2 cache2 = Some m2 ->
    predict m1 (input_data (form_values b1)) = Ok (p :: rest1) ->
    predict m2 (input_data (form_values b2)) = Ok (p :: rest2) ->
    fst (rerun w1 b1 cache1) = fst (rerun w2 b2 cache2)
    /\ pane Col2 (snd (rerun w1 b1 cache1)) = pane Col2 (snd (rerun w2 b2 cache2))
    /\ charts_rendered (snd (rerun w1 b1 cache1))
       = charts_rendered (snd (rerun w2 b2 cache2))
    /\ tips_rendered (snd (rerun w1 b1 cache1))
       = tips_rendered (snd (rerun w2 b2 cache2)).
Proof.
  intros w1 w2 b1 b2 cache1 cache2 m1 m2 p rest1 rest2 Hs1 Hs2 Hfuel Hm1 Hm2 Hp1 Hp2.
  destruct (rerun_view w1 b1 cache1) as (-> & -> & _ & -> & -> & _).
  destruct (rerun_view w2 b2 cache2) as (-> & -> & _ & -> & -> & _).
  rewrite Hm1, Hm2.
  rewrite (view_with_estimate _ _ _ _ Hs1 Hp1), (view_with_estimate _ _ _ _ Hs2 Hp2).
  cbn [fst snd]. rewrite Hfuel. repeat split.
Qed.

Lemma results_depend_on_fuel_and_first_estimate_witness :
  let w1 := world_with (stub_predictor 210.7) in
  let w2 := offline in
  let kept := Some (Some (two_row_predictor 210.7 33.0)) in
  input_data (form_values defaults_submitted)
  <> input_data (form_values other_car_submitted)
  /\ pane Col2 (snd (rerun w1 defaults_submitted None))
     = pane Col2 (snd (rerun w2 other_car_submitted kept)).
Proof.
  cbv zeta. split; [vm_compute; discriminate|].
  apply (results_depend_on_fuel_and_first_estimate
           (world_with (stub_predictor 210.7)) offline
           defaults_submitted other_car_submitted
           None (Some (Some (two_row_predictor 210.7 33.0)))
           (stub_predictor 210.7) (two_row_predictor 210.7 33.0)
           210.7%float [] [33.0%float]); reflexivity.
Defined.
